(** * nest-basic: the cats resource and its request pipeline

    A shallow embedding of the hand-written TypeScript of the repository:
    the validation pipe, the roles guard, the roles decorator, the HTTP
    exception filter, the logger middleware, the logging interceptor, the
    cats service, controller and gateway, together with the order in which
    the decorators of [cats.controller.ts] make the framework run them;
    and the callbacks of the tasks service and of the application service. *)

From Stdlib Require Import Floats.PrimFloat.
From stdpp Require Import gmap strings list.

(** ** JavaScript values

    The values a decoded request body or a [request.user] can hold.  A
    [number] is a binary64 float, an object is a finite map from property
    names to values, and [undefined] is what reading an absent property
    gives. *)
Module JS.

#[local] Set Warnings "-register-all".

Inductive value : Type :=
  | JUndefined
  | JNull
  | JBool (b : bool)
  | JNum (n : float)
  | JStr (s : string)
  | JArr (l : list value)
  | JObj (o : gmap string value).

(** [!!v]: everything is truthy but [undefined], [null], [false], [0],
    [-0], [NaN] and the empty string. *)
Definition truthy (v : value) : bool :=
  match v with
  | JUndefined | JNull => false
  | JBool b => b
  | JNum n => negb (PrimFloat.is_nan n || PrimFloat.eqb n 0%float)
  | JStr s => negb (String.eqb s "")
  | JArr _ | JObj _ => true
  end.

(** [typeof v] *)
Definition typeof (v : value) : string :=
  match v with
  | JUndefined => "undefined"
  | JNull => "object"
  | JBool _ => "boolean"
  | JNum _ => "number"
  | JStr _ => "string"
  | JArr _ | JObj _ => "object"
  end.

(** The framework's [HttpException]: the tagged failure, with its status
    and its message. *)
Record HttpException : Type := {
  getStatus : float;
  message : string
}.

(** What the code throws: a tagged failure or the runtime's [TypeError]. *)
Inductive exn : Type :=
  | Tagged (e : HttpException)
  | TypeError (reason : string).

Definition BadRequestException (text : string) : exn :=
  Tagged {| getStatus := 400%float; message := text |}.

Definition ForbiddenException (text : string) : exn :=
  Tagged {| getStatus := 403%float; message := text |}.

(** The completion of an expression: a value or a thrown exception. *)
Inductive completion (A : Type) : Type :=
  | Normal (a : A)
  | Throw (e : exn).

Arguments Normal {A} a.
Arguments Throw {A} e.

#[global] Instance completion_ret : MRet completion := λ A, Normal.

#[global] Instance completion_bind : MBind completion :=
  λ A B f c, match c with Normal a => f a | Throw e => Throw e end.

Definition is_normal {A : Type} (c : completion A) : bool :=
  match c with Normal _ => true | Throw _ => false end.

(** [v.k] for a property name [k] that is neither an index nor a member of
    a built-in prototype (the code reads [name] and [roles] only): an own
    property of an object, [undefined] on any other non-nullish value, and
    a [TypeError] on [undefined] and [null]. *)
Definition get (v : value) (k : string) : completion value :=
  match v with
  | JUndefined =>
      Throw (TypeError ("Cannot read properties of undefined (reading '" +:+ k +:+ "')"))
  | JNull =>
      Throw (TypeError ("Cannot read properties of null (reading '" +:+ k +:+ "')"))
  | JObj o => Normal (default JUndefined (o !! k))
  | JBool _ | JNum _ | JStr _ | JArr _ => Normal JUndefined
  end.

(** [x === 'admin']: only the string [admin] is equal to it. *)
Definition is_admin (x : value) : bool :=
  match x with
  | JStr s => String.eqb s "admin"
  | _ => false
  end.

(** [s.includes('admin')] on a string [s]: [admin] occurs in [s]. *)
Fixpoint occurs_admin (s : string) : bool :=
  match s with
  | EmptyString => false
  | String _ s' => String.prefix "admin" s || occurs_admin s'
  end.

(** [roles.includes('admin')]: [Array.prototype.includes] compares the
    elements with [admin]; [String.prototype.includes] searches for it;
    nothing else among these values has a callable [includes]. *)
Definition includes_admin (roles : value) : completion value :=
  match roles with
  | JArr l => Normal (JBool (existsb is_admin l))
  | JStr s => Normal (JBool (occurs_admin s))
  | _ => Throw (TypeError "user.roles.includes is not a function")
  end.

End JS.

Export JS.

(** ** [src/validation/validation.pipe.ts] *)
Module ValidationPipe.

Inductive Paramtype : Type := BODY | QUERY | PARAM | CUSTOM.

Record ArgumentMetadata : Type := {
  type : Paramtype;
  data : option string
}.

(** [transform(value, metadata)] *)
Definition transform (v : value) (metadata : ArgumentMetadata) : completion value :=
  if negb (truthy v)
  then Throw (BadRequestException "Validation failed: name is required")
  else
    name ← get v "name";
    if negb (String.eqb (typeof name) "string")
    then Throw (BadRequestException "Validation failed: name is required")
    else Normal v.

(** The contract in the specification's words: the value is neither
    [null] nor [undefined] ... *)
Definition defined (v : value) : bool :=
  match v with
  | JUndefined | JNull => false
  | _ => true
  end.

(** ... and it has a [name] field that holds a string. *)
Definition has_string_name (v : value) : bool :=
  match v with
  | JObj o => match o !! "name" with Some (JStr _) => true | _ => false end
  | _ => false
  end.

End ValidationPipe.

(** ** The execution context of a request

    What a guard is handed: the incoming request and the metadata that
    decorators attached to the route handler. *)
Module Execution.

Record Request : Type := {
  method : string;
  url : string;
  user : value;
  body : value
}.

Record ExecutionContext : Type := {
  getRequest : Request;
  getHandlerMetadata : gmap string value
}.

End Execution.

Export Execution.

(** ** [src/roles/roles.decorator.ts] and [src/roles/roles.guard.ts] *)
Module RolesGuard.

(** [SetMetadata(key, value)] as a decorator of a handler. *)
Definition SetMetadata (key : string) (v : value)
    (metadata : gmap string value) : gmap string value :=
  <[key := v]> metadata.

(** [Roles(...roles)] *)
Definition Roles (roles : list string) : gmap string value → gmap string value :=
  SetMetadata "roles" (JArr (JStr <$> roles)).

(** [a && b]: [a] when it is falsy, else [b]; [b] is not evaluated in the
    first case. *)
Definition and_then (a : value) (b : completion value) : completion value :=
  if truthy a then b else Normal a.

(** [canActivate(context)] *)
Definition canActivate (context : ExecutionContext) : completion value :=
  let request := getRequest context in
  let user := user request in
  and_then user
    (roles ← get user "roles";
     and_then roles (includes_admin roles)).

(** The specification's words: the context carries a user whose role
    list contains the literal string [admin]. *)
Definition carries_admin (request : Request) : Prop :=
  ∃ (u : gmap string value) (roles : list value),
    user request = JObj u ∧ u !! "roles" = Some (JArr roles) ∧ JStr "admin" ∈ roles.

End RolesGuard.

(** ** The process: the record store and the console *)
Module Process.

Record World : Type := {
  cats : list value;
  console : list string
}.

(** A statement of the program: it may change the world, and it completes
    with a value or throws. *)
Definition Eff (A : Type) : Type := World → completion A * World.

#[global] Instance Eff_ret : MRet Eff := λ A a w, (Normal a, w).

#[global] Instance Eff_bind : MBind Eff :=
  λ A B f m w,
    match m w with
    | (Normal a, w') => f a w'
    | (Throw e, w') => (Throw e, w')
    end.

Definition liftC {A : Type} (c : completion A) : Eff A := λ w, (c, w).

Definition throw {A : Type} (e : exn) : Eff A := liftC (Throw e).

(** The world with one more line on the console. *)
Definition logged (line : string) (w : World) : World :=
  {| cats := cats w; console := console w ++ [line] |}.

(** [console.log(line)] *)
Definition console_log (line : string) : Eff unit :=
  λ w, (Normal (), logged line w).

End Process.

Export Process.

(** ** [src/cats/cats.service.ts] *)
Module CatsService.

Definition tom : value :=
  JObj (<["name" := JStr "Tom"]> (<["age" := JNum 3%float]> ∅)).

(** [private cats = [{ name: 'Tom', age: 3 }]] in a fresh process. *)
Definition initial : World := {| cats := [tom]; console := [] |}.

(** [getCats()] hands out the array itself; the controller passes it on
    to be serialised, and nothing in the repository writes to it. *)
Definition getCats : Eff value :=
  λ w, (Normal (JArr (cats w)), w).

(** [createCat(cat)]: [this.cats.push(cat); return cat] *)
Definition createCat (cat : value) : Eff value :=
  λ w, (Normal cat, {| cats := cats w ++ [cat]; console := console w |}).

End CatsService.

(** ** [src/cats/cats.gateway.ts] *)
Module CatsGateway.

(** [handleMessage(data)] *)
Definition handleMessage (data : string) : string :=
  "Received: " +:+ data.

End CatsGateway.

(** ** [src/http-exception/http-exception.filter.ts] *)
Module HttpExceptionFilter.

(** The transport response: its status code and the body once sent. *)
Record Response : Type := {
  statusCode : float;
  sent : option value
}.

(** [response.status(code)] *)
Definition status (code : float) (response : Response) : Response :=
  {| statusCode := code; sent := sent response |}.

(** [response.json(body)] *)
Definition json (payload : value) (response : Response) : Response :=
  {| statusCode := statusCode response; sent := Some payload |}.

(** [catch(exception, host)], on the response [host] gives access to.
    The filter is declared [@Catch(HttpException)]: it is handed tagged
    exceptions only. *)
Definition catch (exception : HttpException) (response : Response) : Response :=
  let status_ := getStatus exception in
  json
    (JObj (<["statusCode" := JNum status_]>
             (<["message" := JStr (message exception)]> ∅)))
    (status status_ response).

End HttpExceptionFilter.

(** ** [src/logger/logger.middleware.ts] *)
Module LoggerMiddleware.

(** [use(req, res, next)] *)
Definition use {A : Type} (req : Request) (next : Eff A) : Eff A :=
  _ ← console_log ("[Request] " +:+ method req +:+ " " +:+ url req);
  next.

End LoggerMiddleware.

(** ** [src/logging/logging.interceptor.ts] *)
Module LoggingInterceptor.

(** [intercept(context, next)]: the [tap] runs when the handler has
    produced its value, not when it has thrown. *)
Definition intercept {A : Type} (context : ExecutionContext) (next : Eff A) : Eff A :=
  _ ← console_log "Before...";
  a ← next;
  _ ← console_log "After...";
  mret a.

End LoggingInterceptor.

(** ** [src/cats/cats.controller.ts]

    The controller as that file has it: the interceptor and the filter
    are bound to the controller, the guard to [create] alone. *)
Module CatsController.

Import ValidationPipe HttpExceptionFilter.

Definition Guard : Type := ExecutionContext → completion value.

Definition Pipe : Type := value → ArgumentMetadata → completion value.

(** A route handler with what its decorators declare: the metadata set
    on it, the guards and pipes bound to it, and the status of a
    successful response ([200], and [201] for a [@Post()]). *)
Record Route : Type := {
  metadata : gmap string value;
  guards : list Guard;
  pipes : list Pipe;
  httpCode : float;
  handler : value → Eff value
}.

(** [@Get() getAll()] *)
Definition getAll : Route := {|
  metadata := ∅;
  guards := [];
  pipes := [];
  httpCode := 200%float;
  handler := λ _, CatsService.getCats
|}.

(** [@Post() @Roles('admin') @UseGuards(RolesGuard) @UsePipes(ValidationPipe)
    create(@Body() createCatDto)] *)
Definition create : Route := {|
  metadata := RolesGuard.Roles ["admin"] ∅;
  guards := [RolesGuard.canActivate];
  pipes := [ValidationPipe.transform];
  httpCode := 201%float;
  handler := CatsService.createCat
|}.

(** [@Post("/validation-pipe") @UsePipes(ValidationPipe)
    createWithValidation(@Body() createCatDto)] *)
Definition createWithValidation : Route := {|
  metadata := ∅;
  guards := [];
  pipes := [ValidationPipe.transform];
  httpCode := 201%float;
  handler := CatsService.createCat
|}.

(** [@Controller('cats')] with the paths of the three handlers. *)
Definition router (req : Request) : option Route :=
  if String.eqb (method req) "GET" && String.eqb (url req) "/cats"
  then Some getAll
  else if String.eqb (method req) "POST" && String.eqb (url req) "/cats"
  then Some create
  else if String.eqb (method req) "POST" && String.eqb (url req) "/cats/validation-pipe"
  then Some createWithValidation
  else None.

(** The guards of a route, in order: the request goes on when each one
    returns a truthy value. *)
Fixpoint tryActivate (gs : list Guard) (context : ExecutionContext) : completion bool :=
  match gs with
  | [] => Normal true
  | g :: gs' =>
      r ← g context;
      if truthy r then tryActivate gs' context else Normal false
  end.

(** The pipes of a route, in order, on the argument bound by [@Body()]. *)
Fixpoint applyPipes (ps : list Pipe) (v : value) (md : ArgumentMetadata) : completion value :=
  match ps with
  | [] => Normal v
  | p :: ps' => v' ← p v md; applyPipes ps' v' md
  end.

Definition bodyMetadata : ArgumentMetadata := {| type := BODY; data := None |}.

(** One request through the stages in their declared order: the logger
    middleware ([cats.module.ts]), the guards, the logging interceptor
    (bound once for the application in [app.module.ts] and once on the
    controller), the pipes, the handler.  When a guard returns a falsy
    value the framework throws its [ForbiddenException]. *)
Definition invoke (r : Route) (req : Request) : Eff value :=
  let context := {| getRequest := req; getHandlerMetadata := metadata r |} in
  LoggerMiddleware.use req
    (granted ← liftC (tryActivate (guards r) context);
     if granted : bool then
       LoggingInterceptor.intercept context
         (LoggingInterceptor.intercept context
            (arg ← liftC (applyPipes (pipes r) (body req) bodyMetadata);
             handler r arg))
     else throw (ForbiddenException "Forbidden resource")).

(** What the caller gets: a response, or a failure that the filter of the
    controller does not catch and that goes on to the framework; [NoRoute]
    when no handler of the controller matches. *)
Inductive Outcome : Type :=
  | Responded (response : Response)
  | Unhandled (e : exn)
  | NoRoute.

Definition fresh : Response := {| statusCode := 200%float; sent := None |}.

(** The answer to a completed handler: its value under the status of the
    route, or what [@UseFilters(HttpExceptionFilter)] makes of a thrown
    exception. *)
Definition reply (code : float) (c : completion value) : Outcome :=
  match c with
  | Normal v => Responded (json v (status code fresh))
  | Throw (Tagged e) => Responded (catch e fresh)
  | Throw (TypeError reason) => Unhandled (TypeError reason)
  end.

Definition dispatch (r : Route) (req : Request) (w : World) : Outcome * World :=
  let '(c, w') := invoke r req w in (reply (httpCode r) c, w').

(** A route with other metadata on its handler, as a different [@Roles]
    annotation (or none) would leave it. *)
Definition annotated (md : gmap string value) (r : Route) : Route := {|
  metadata := md;
  guards := guards r;
  pipes := pipes r;
  httpCode := httpCode r;
  handler := handler r
|}.

Definition handle (req : Request) (w : World) : Outcome * World :=
  match router req with
  | Some r => dispatch r req w
  | None => (NoRoute, w)
  end.

(** The requests of a session, one after the other. *)
Fixpoint serve (reqs : list Request) (w : World) : list Outcome * World :=
  match reqs with
  | [] => ([], w)
  | req :: reqs' =>
      let '(o, w') := handle req w in
      let '(os, w'') := serve reqs' w' in
      (o :: os, w'')
  end.

Definition GET (path : string) (caller : value) : Request :=
  {| method := "GET"; url := path; user := caller; body := JUndefined |}.

Definition POST (path : string) (caller : value) (payload : value) : Request :=
  {| method := "POST"; url := path; user := caller; body := payload |}.

End CatsController.

(** ** Sample data of the specification and of the test files *)
Module Samples.

Definition whiskers : value :=
  JObj (<["name" := JStr "Whiskers"]> (<["age" := JNum 2%float]> ∅)).

Definition malformed : value :=
  JObj (<["name" := JNum 123%float]> (<["age" := JStr "x"]> ∅)).

(** [{ user: { roles: ['admin'] } }] and [{ user: {} }] of the guard's
    tests, and a request nobody authenticated. *)
Definition admin : value := JObj (<["roles" := JArr [JStr "admin"]]> ∅).

Definition no_roles : value := JObj ∅.

Definition anonymous : value := JUndefined.

Definition md0 : ValidationPipe.ArgumentMetadata :=
  {| ValidationPipe.type := ValidationPipe.BODY; ValidationPipe.data := None |}.

End Samples.

(** ** [src/tasks/tasks.service.ts] *)
Module TasksService.




End TasksService.

(** ** [src/app.service.ts] *)
Module AppService.



End AppService.

(** ** The running application

    What the event loop runs, one callback to completion after the other:
    the requests of the controller, the three timers of [TasksService]
    and the two lifecycle hooks of [AppService].  When a timer fires is
    the scheduler's business; any order of events is allowed here. *)
Module Runtime.

Import CatsController.







End Runtime.

(** * Properties *)

Import ValidationPipe RolesGuard CatsService CatsGateway HttpExceptionFilter.
Import CatsController Samples.

(** ** Values *)

(** Two floats that [PrimFloat.eqb] tells apart are different. *)
Lemma eqb_false_neq (a b : float) : PrimFloat.eqb a b = false → PrimFloat.eqb b b = true → a ≠ b.
Proof. intros Hab Hbb ->. rewrite Hbb in Hab. discriminate. Qed.

Lemma is_admin_iff (x : value) : is_admin x = true ↔ x = JStr "admin".
Proof.
  destruct x; simpl; try (split; [discriminate | intros [=]]).
  rewrite String.eqb_eq. split; [intros -> | intros [=]]; done.
Qed.

(** [Array.prototype.includes('admin')] decides membership of the string. *)
Lemma includes_admin_elem_of (l : list value) :
  existsb is_admin l = true ↔ JStr "admin" ∈ l.
Proof.
  induction l as [|x l IH]; simpl.
  - split; [discriminate | by intros ?%elem_of_nil].
  - rewrite orb_true_iff, elem_of_cons, IH, is_admin_iff.
    split; intros [->|?]; auto.
Qed.

(** A truthy value is neither [undefined] nor [null], so reading a
    property of it does not throw. *)
Lemma get_truthy (v : value) (k : string) :
  truthy v = true → ∃ x, get v k = Normal x.
Proof. destruct v; simpl; intros H; try discriminate; eauto. Qed.

(** ** The validation pipe *)

(** A value without own properties has no [name]: the second test of
    [transform] fails on it when the first does not. *)
Lemma transform_no_properties (v : value) (md : ArgumentMetadata) :
  get v "name" = Normal JUndefined →
  transform v md = Throw (BadRequestException "Validation failed: name is required").
Proof.
  intros Hget. unfold transform. rewrite Hget. simpl.
  by destruct (truthy v).
Qed.

Lemma transform_object (o : gmap string value) (md : ArgumentMetadata) :
  transform (JObj o) md =
    match o !! "name" with
    | Some (JStr _) => Normal (JObj o)
    | _ => Throw (BadRequestException "Validation failed: name is required")
    end.
Proof.
  unfold transform. simpl.
  destruct (o !! "name") as [[]|]; reflexivity.
Qed.

(** C1. [ValidationPipe.transform] returns its input unchanged exactly
    when the input is neither [null] nor [undefined] and has a [name]
    field holding a string; on every other input it throws the
    [BadRequestException] with the message "Validation failed: name is
    required"; and the outcome on an object does not depend on any field
    other than [name], nor on the argument metadata. *)
Theorem transform_contract (v : value) (md : ArgumentMetadata) :
  transform v md =
    (if defined v && has_string_name v then Normal v
     else Throw (Tagged {| getStatus := 400%float;
                           message := "Validation failed: name is required" |}))
  ∧ (∀ (o : gmap string value) (k : string) (x : value) (md' : ArgumentMetadata),
       k ≠ "name" →
       is_normal (transform (JObj (<[k := x]> o)) md') = is_normal (transform (JObj o) md)
       ∧ is_normal (transform (JObj (delete k o)) md') = is_normal (transform (JObj o) md)).
Proof.
  split.
  - destruct v as [| | b | n | s | l | o]; try reflexivity.
    + by apply transform_no_properties.
    + by apply transform_no_properties.
    + by apply transform_no_properties.
    + rewrite transform_object. simpl.
      destruct (o !! "name") as [[]|]; reflexivity.
  - intros o k x md' Hk. rewrite !transform_object.
    rewrite lookup_insert_ne, lookup_delete_ne by done.
    destruct (o !! "name") as [[]|]; split; reflexivity.
Qed.

Lemma transform_contract_witness :
  transform tom md0 = Normal tom
  ∧ is_normal (transform (JObj (<["age" := JStr "x"]> ∅)) md0) = false.
Proof.
  split.
  - exact (proj1 (transform_contract tom md0)).
  - destruct (proj2 (transform_contract JNull md0) ∅ "age" (JStr "x") md0) as [H _].
    + discriminate.
    + rewrite H. reflexivity.
Defined.

(** ** The roles guard *)

Lemma canActivate_metadata (req : Request) (md1 md2 : gmap string value) :
  canActivate {| getRequest := req; getHandlerMetadata := md1 |} =
  canActivate {| getRequest := req; getHandlerMetadata := md2 |}.
Proof. reflexivity. Qed.

(** With a role list the guard returns the boolean of
    [Array.prototype.includes]. *)
Lemma canActivate_role_list (context : ExecutionContext)
    (u : gmap string value) (roles : list value) :
  user (getRequest context) = JObj u →
  u !! "roles" = Some (JArr roles) →
  canActivate context = Normal (JBool (existsb is_admin roles)).
Proof.
  intros Hu Hroles. unfold canActivate. rewrite Hu. simpl.
  rewrite Hroles. reflexivity.
Qed.

Lemma canActivate_carries_admin (context : ExecutionContext) :
  carries_admin (getRequest context) →
  canActivate context = Normal (JBool true).
Proof.
  intros (u & roles & Hu & Hroles & Hin).
  rewrite (canActivate_role_list context u roles Hu Hroles).
  apply includes_admin_elem_of in Hin. by rewrite Hin.
Qed.

Lemma carries_admin_admin (m p : string) (payload : value) :
  carries_admin {| method := m; url := p; user := admin; body := payload |}.
Proof.
  exists (<["roles" := JArr [JStr "admin"]]> ∅), [JStr "admin"].
  split; [reflexivity |]. split; [apply lookup_insert_eq | apply list_elem_of_here].
Qed.

(** Without a truthy user the guard returns the user itself. *)
Lemma canActivate_falsy_user (context : ExecutionContext) :
  truthy (user (getRequest context)) = false →
  canActivate context = Normal (user (getRequest context)).
Proof. intros H. unfold canActivate, and_then. by rewrite H. Qed.

(** C2, at the input of the guard's own test ([user: {}], expected
    [toBe(false)]): for a user without a [roles] field [canActivate]
    returns [undefined], the value of [user.roles], and not [false];
    so it does for a request without a user.  With [roles: ['admin']]
    it returns [true]. *)
Theorem canActivate_user_without_roles (m p : string) (payload : value)
    (md : gmap string value) :
  canActivate {| getRequest := {| method := m; url := p; user := no_roles; body := payload |};
                 getHandlerMetadata := md |} = Normal JUndefined
  ∧ canActivate {| getRequest := {| method := m; url := p; user := anonymous; body := payload |};
                   getHandlerMetadata := md |} = Normal JUndefined
  ∧ canActivate {| getRequest := {| method := m; url := p; user := admin; body := payload |};
                   getHandlerMetadata := md |} = Normal (JBool true)
  ∧ Normal JUndefined ≠ Normal (JBool false).
Proof.
  split; [| split; [| split]].
  - unfold canActivate, no_roles. simpl. rewrite lookup_empty. reflexivity.
  - by apply canActivate_falsy_user.
  - apply canActivate_carries_admin, carries_admin_admin.
  - discriminate.
Qed.

(** ** The pipeline *)

Lemma tryActivate_create (context : ExecutionContext) :
  tryActivate (guards create) context =
    match canActivate context with
    | Normal r => Normal (truthy r)
    | Throw e => Throw e
    end.
Proof.
  unfold create, guards, tryActivate.
  destruct (canActivate context) as [r|e]; simpl; [|reflexivity].
  by destruct (truthy r).
Qed.

Lemma applyPipes_transform (v : value) (md : ArgumentMetadata) :
  applyPipes [transform] v md = transform v md.
Proof. simpl. by destruct (transform v md). Qed.

(** The stages of [invoke], one by one. *)
Lemma invoke_stages (r : Route) (req : Request) (w : World) :
  invoke r req w =
    let w0 := logged ("[Request] " +:+ method req +:+ " " +:+ url req) w in
    match tryActivate (guards r) {| getRequest := req; getHandlerMetadata := metadata r |} with
    | Throw e => (Throw e, w0)
    | Normal false => (Throw (ForbiddenException "Forbidden resource"), w0)
    | Normal true =>
        let w1 := logged "Before..." (logged "Before..." w0) in
        match applyPipes (pipes r) (body req) bodyMetadata with
        | Throw e => (Throw e, w1)
        | Normal arg =>
            match handler r arg w1 with
            | (Normal v, w2) => (Normal v, logged "After..." (logged "After..." w2))
            | (Throw e, w2) => (Throw e, w2)
            end
        end
    end.
Proof.
  unfold invoke, LoggerMiddleware.use, LoggingInterceptor.intercept.
  unfold mbind, Eff_bind, mret, Eff_ret, throw, liftC, console_log. simpl.
  destruct (tryActivate _ _) as [[]|e]; try reflexivity.
  destruct (applyPipes _ _ _) as [arg|e]; try reflexivity.
  destruct (handler r arg _) as [[v|e] w2]; reflexivity.
Qed.

Section AppendOnly.

(** A route whose handler only ever appends to the store. *)
Variable r : Route.
Hypothesis handler_appends :
  ∀ (arg : value) (w : World), cats w `prefix_of` cats (handler r arg w).2.

Lemma invoke_appends (req : Request) (w : World) :
  cats w `prefix_of` cats (invoke r req w).2.
Proof.
  rewrite invoke_stages. simpl.
  destruct (tryActivate _ _) as [[]|e]; simpl; try reflexivity.
  destruct (applyPipes _ _ _) as [arg|e]; simpl; try reflexivity.
  specialize (handler_appends arg
    (logged "Before..." (logged "Before..."
       (logged ("[Request] " +:+ method req +:+ " " +:+ url req) w)))).
  destruct (handler r arg _) as [[v|e] w2]; simpl in *; exact handler_appends.
Qed.

Lemma dispatch_appends (req : Request) (w : World) :
  cats w `prefix_of` cats (dispatch r req w).2.
Proof.
  unfold dispatch. pose proof (invoke_appends req w) as H.
  by destruct (invoke r req w) as [c w'].
Qed.

End AppendOnly.

Lemma getCats_appends (w : World) : cats w `prefix_of` cats (getCats w).2.
Proof. reflexivity. Qed.

Lemma createCat_appends (cat : value) (w : World) :
  cats w `prefix_of` cats (createCat cat w).2.
Proof. simpl. by apply prefix_app_r. Qed.

Lemma router_routes (req : Request) (r : Route) :
  router req = Some r → r = getAll ∨ r = create ∨ r = createWithValidation.
Proof.
  unfold router. repeat case_match; intros [=]; auto.
Qed.

Lemma handle_appends (req : Request) (w : World) :
  cats w `prefix_of` cats (handle req w).2.
Proof.
  unfold handle. destruct (router req) as [r|] eqn:Hr; [|reflexivity].
  apply dispatch_appends. intros arg w'.
  destruct (router_routes req r Hr) as [-> | [-> | ->]]; simpl;
    first [apply createCat_appends | apply getCats_appends].
Qed.

Lemma serve_cons (req : Request) (reqs : list Request) (w : World) :
  (serve (req :: reqs) w).2 = (serve reqs (handle req w).2).2.
Proof.
  simpl. destruct (handle req w) as [o w']. simpl.
  by destruct (serve reqs w').
Qed.

Lemma serve_appends (reqs : list Request) :
  ∀ w : World, cats w `prefix_of` cats (serve reqs w).2.
Proof.
  induction reqs as [|req reqs IH]; intros w; [reflexivity |].
  rewrite serve_cons. etrans; [apply handle_appends | apply IH].
Qed.

(** C5. Every operation on the record store keeps the records stored
    before it, unchanged and in their order: the store before [getCats],
    before [createCat] and before any sequence of requests served by the
    controller is a prefix of the store after it. *)
Theorem store_append_only (w : World) :
  cats w `prefix_of` cats (getCats w).2
  ∧ (∀ cat : value, cats w `prefix_of` cats (createCat cat w).2)
  ∧ (∀ reqs : list Request, cats w `prefix_of` cats (serve reqs w).2).
Proof.
  split; [apply getCats_appends |].
  split; [intros cat; apply createCat_appends |].
  intros reqs. apply serve_appends.
Qed.

Lemma dispatch_invoke (r : Route) (req : Request) (w : World) :
  (dispatch r req w).1 = reply (httpCode r) (invoke r req w).1
  ∧ cats (dispatch r req w).2 = cats (invoke r req w).2.
Proof. unfold dispatch. by destruct (invoke r req w). Qed.

(** What [create] completes with and what it leaves in the store. *)
Lemma invoke_create (req : Request) (w : World) :
  ((invoke create req w).1, cats (invoke create req w).2) =
    match canActivate {| getRequest := req; getHandlerMetadata := metadata create |} with
    | Throw e => (Throw e, cats w)
    | Normal g =>
        if truthy g then
          match transform (body req) bodyMetadata with
          | Normal v => (Normal v, cats w ++ [v])
          | Throw e => (Throw e, cats w)
          end
        else (Throw (ForbiddenException "Forbidden resource"), cats w)
    end.
Proof.
  rewrite invoke_stages, tryActivate_create.
  destruct (canActivate _) as [g|e]; [|reflexivity].
  destruct (truthy g); [|reflexivity].
  change (pipes create) with [transform]. rewrite applyPipes_transform.
  by destruct (transform _ _).
Qed.

Lemma invoke_createWithValidation (req : Request) (w : World) :
  ((invoke createWithValidation req w).1, cats (invoke createWithValidation req w).2) =
    match transform (body req) bodyMetadata with
    | Normal v => (Normal v, cats w ++ [v])
    | Throw e => (Throw e, cats w)
    end.
Proof.
  rewrite invoke_stages.
  change (guards createWithValidation) with (@nil Guard).
  change (pipes createWithValidation) with [transform].
  rewrite applyPipes_transform. simpl.
  by destruct (transform _ _).
Qed.

Lemma transform_malformed (md : ArgumentMetadata) :
  transform malformed md = Throw (BadRequestException "Validation failed: name is required").
Proof. unfold malformed. rewrite transform_object. reflexivity. Qed.

Lemma transform_whiskers (md : ArgumentMetadata) :
  transform whiskers md = Normal whiskers.
Proof. unfold whiskers. rewrite transform_object. reflexivity. Qed.

(** ** The routes *)

Lemma handle_post_cats (caller payload : value) (w : World) :
  handle (POST "/cats" caller payload) w = dispatch create (POST "/cats" caller payload) w.
Proof. reflexivity. Qed.

Lemma handle_post_validation_pipe (caller payload : value) (w : World) :
  handle (POST "/cats/validation-pipe" caller payload) w =
  dispatch createWithValidation (POST "/cats/validation-pipe" caller payload) w.
Proof. reflexivity. Qed.

Lemma handle_get_cats (caller : value) (w : World) :
  (handle (GET "/cats" caller) w).1 =
    Responded {| statusCode := 200%float; sent := Some (JArr (cats w)) |}
  ∧ cats (handle (GET "/cats" caller) w).2 = cats w.
Proof. split; reflexivity. Qed.

(** [POST /cats] for a caller the guard lets through. *)
Lemma post_cats_granted (caller payload : value) (w : World) :
  carries_admin (POST "/cats" caller payload) →
  ((handle (POST "/cats" caller payload) w).1, cats (handle (POST "/cats" caller payload) w).2) =
    match transform payload bodyMetadata with
    | Normal v => (reply 201%float (Normal v), cats w ++ [v])
    | Throw e => (reply 201%float (Throw e), cats w)
    end.
Proof.
  intros Hadmin. rewrite handle_post_cats.
  destruct (dispatch_invoke create (POST "/cats" caller payload) w) as [-> ->].
  pose proof (invoke_create (POST "/cats" caller payload) w) as Hinv.
  rewrite (canActivate_carries_admin
             {| getRequest := POST "/cats" caller payload;
                getHandlerMetadata := metadata create |} Hadmin) in Hinv.
  simpl in Hinv.
  destruct (transform payload bodyMetadata) as [v|e];
    injection Hinv as -> ->; reflexivity.
Qed.

Lemma post_validation_pipe (caller payload : value) (w : World) :
  ((handle (POST "/cats/validation-pipe" caller payload) w).1,
   cats (handle (POST "/cats/validation-pipe" caller payload) w).2) =
    match transform payload bodyMetadata with
    | Normal v => (reply 201%float (Normal v), cats w ++ [v])
    | Throw e => (reply 201%float (Throw e), cats w)
    end.
Proof.
  rewrite handle_post_validation_pipe.
  destruct (dispatch_invoke createWithValidation
              (POST "/cats/validation-pipe" caller payload) w) as [-> ->].
  pose proof (invoke_createWithValidation
                (POST "/cats/validation-pipe" caller payload) w) as Hinv.
  simpl in Hinv.
  destruct (transform payload bodyMetadata) as [v|e];
    injection Hinv as -> ->; reflexivity.
Qed.

(** C3, as amended. [POST /cats] with the body [{name: 123, age: "x"}]
    leaves the record sequence exactly as it was, whoever the caller is;
    from a caller whose role list contains [admin] it is answered with
    status 400 and the message "Validation failed: name is required". *)
Theorem post_malformed_rejected (caller : value) (w : World) :
  cats (handle (POST "/cats" caller malformed) w).2 = cats w
  ∧ (carries_admin (POST "/cats" caller malformed) →
     (handle (POST "/cats" caller malformed) w).1 =
       Responded {|
         statusCode := 400%float;
         sent := Some (JObj (<["statusCode" := JNum 400%float]>
                   (<["message" := JStr "Validation failed: name is required"]> ∅)))
       |}).
Proof.
  split.
  - rewrite handle_post_cats.
    destruct (dispatch_invoke create (POST "/cats" caller malformed) w) as [_ ->].
    pose proof (invoke_create (POST "/cats" caller malformed) w) as Hinv.
    destruct (canActivate _) as [g|e]; [destruct (truthy g) |].
    + change (body (POST "/cats" caller malformed)) with malformed in Hinv.
      rewrite transform_malformed in Hinv. by injection Hinv.
    + by injection Hinv.
    + by injection Hinv.
  - intros Hadmin.
    pose proof (post_cats_granted caller malformed w Hadmin) as Hpost.
    rewrite transform_malformed in Hpost. by injection Hpost.
Qed.

Lemma post_malformed_rejected_witness :
  cats (handle (POST "/cats" admin malformed) initial).2 = [tom]
  ∧ (handle (POST "/cats" admin malformed) initial).1 =
      Responded {|
        statusCode := 400%float;
        sent := Some (JObj (<["statusCode" := JNum 400%float]>
                  (<["message" := JStr "Validation failed: name is required"]> ∅)))
      |}.
Proof.
  split.
  - exact (proj1 (post_malformed_rejected admin initial)).
  - apply (proj2 (post_malformed_rejected admin initial)).
    apply carries_admin_admin.
Defined.

(** C3, as stated, fails for a caller without the [admin] role: the guard
    runs before the pipe, and the request of a caller nobody
    authenticated is answered with status 403, not 400. *)
Lemma post_malformed_anonymous_forbidden :
  (handle (POST "/cats" anonymous malformed) initial).1 =
    Responded {|
      statusCode := 403%float;
      sent := Some (JObj (<["statusCode" := JNum 403%float]>
                (<["message" := JStr "Forbidden resource"]> ∅)))
    |}
  ∧ ¬ (∃ payload : option value,
         (handle (POST "/cats" anonymous malformed) initial).1 =
           Responded {| statusCode := 400%float; sent := payload |}).
Proof.
  assert ((handle (POST "/cats" anonymous malformed) initial).1 =
    Responded {|
      statusCode := 403%float;
      sent := Some (JObj (<["statusCode" := JNum 403%float]>
                (<["message" := JStr "Forbidden resource"]> ∅)))
    |}) as Hforbidden by reflexivity.
  split; [exact Hforbidden |].
  intros [payload H]. rewrite Hforbidden in H.
  apply (f_equal (λ o, match o with Responded r => statusCode r | _ => 0%float end)) in H.
  simpl in H. by apply (eqb_false_neq 403%float 400%float).
Qed.

(** C4. For every prior store, [POST /cats] with the body
    [{name: "Whiskers", age: 2}] from a caller whose role list contains
    [admin] is answered with status 201, and a following [GET /cats]
    returns the previous sequence with that record appended last. *)
Theorem post_whiskers_then_get (caller reader : value) (w : World) :
  carries_admin (POST "/cats" caller whiskers) →
  (handle (POST "/cats" caller whiskers) w).1 =
    Responded {| statusCode := 201%float; sent := Some whiskers |}
  ∧ (handle (GET "/cats" reader) (handle (POST "/cats" caller whiskers) w).2).1 =
      Responded {| statusCode := 200%float; sent := Some (JArr (cats w ++ [whiskers])) |}.
Proof.
  intros Hadmin.
  pose proof (post_cats_granted caller whiskers w Hadmin) as Hpost.
  rewrite transform_whiskers in Hpost. injection Hpost as Hresp Hcats.
  split; [exact Hresp |].
  destruct (handle_get_cats reader (handle (POST "/cats" caller whiskers) w).2) as [-> _].
  by rewrite Hcats.
Qed.

Lemma post_whiskers_then_get_witness :
  (handle (POST "/cats" admin whiskers) initial).1 =
    Responded {| statusCode := 201%float; sent := Some whiskers |}
  ∧ (handle (GET "/cats" anonymous) (handle (POST "/cats" admin whiskers) initial).2).1 =
      Responded {| statusCode := 200%float; sent := Some (JArr [tom; whiskers]) |}.
Proof.
  apply (post_whiskers_then_get admin anonymous initial).
  apply carries_admin_admin.
Defined.

(** C6. [POST /cats/validation-pipe] has no guard, and the same pipe and
    the same handler as [POST /cats]: for every body and every caller it
    gives the answer, and leaves the store, that [POST /cats] gives for
    that body to a caller whose role list contains [admin]. *)
Theorem createWithValidation_as_create (caller admin_caller payload : value) (w : World) :
  carries_admin (POST "/cats" admin_caller payload) →
  guards createWithValidation = []
  ∧ pipes createWithValidation = pipes create
  ∧ handler createWithValidation = handler create
  ∧ (handle (POST "/cats/validation-pipe" caller payload) w).1 =
      (handle (POST "/cats" admin_caller payload) w).1
  ∧ cats (handle (POST "/cats/validation-pipe" caller payload) w).2 =
      cats (handle (POST "/cats" admin_caller payload) w).2.
Proof.
  intros Hadmin. do 3 (split; [reflexivity |]).
  pose proof (post_cats_granted admin_caller payload w Hadmin) as Hcreate.
  pose proof (post_validation_pipe caller payload w) as Hplain.
  rewrite <- Hcreate in Hplain. by injection Hplain.
Qed.

Lemma createWithValidation_as_create_witness :
  (handle (POST "/cats/validation-pipe" no_roles whiskers) initial).1 =
    (handle (POST "/cats" admin whiskers) initial).1
  ∧ cats (handle (POST "/cats/validation-pipe" no_roles whiskers) initial).2 =
      cats (handle (POST "/cats" admin whiskers) initial).2.
Proof.
  apply (createWithValidation_as_create no_roles admin whiskers initial).
  apply carries_admin_admin.
Defined.

(** ** The exception filter *)

(** C7. For a tagged exception with status [s] and message [m],
    [HttpExceptionFilter.catch] sets the status of the response to [s]
    and sends as its body the object whose [statusCode] is [s], whose
    [message] is [m], and which has no other field. *)
Theorem catch_serializes (s : float) (m : string) (response : Response) :
  ∃ o : gmap string value,
    catch {| getStatus := s; message := m |} response =
      {| statusCode := s; sent := Some (JObj o) |}
    ∧ o !! "statusCode" = Some (JNum s)
    ∧ o !! "message" = Some (JStr m)
    ∧ dom o = {["statusCode"; "message"]}.
Proof.
  exists (<["statusCode" := JNum s]> (<["message" := JStr m]> ∅)).
  split; [reflexivity |].
  split; [apply lookup_insert_eq |].
  split.
  - rewrite lookup_insert_ne by done. apply lookup_insert_eq.
  - rewrite !dom_insert_L, dom_empty_L. set_solver.
Qed.

(** ** The gateway *)

(** C8. For every payload [p], [CatsGateway.handleMessage] returns the
    string "Received: " followed by [p]; for "ping" it returns
    "Received: ping". *)
Theorem handleMessage_echo (p : string) :
  handleMessage p = "Received: " +:+ p
  ∧ String.length (handleMessage p) = 10 + String.length p
  ∧ handleMessage "ping" = "Received: ping".
Proof.
  split; [reflexivity |]. split; reflexivity.
Qed.

(** ** The store at startup *)

(** Reading does not change the store. *)
Lemma serve_gets (n : nat) (caller : value) :
  ∀ w : World, cats (serve (replicate n (GET "/cats" caller)) w).2 = cats w.
Proof.
  induction n as [|n IH]; intros w; [reflexivity |].
  change (replicate (S n) (GET "/cats" caller))
    with (GET "/cats" caller :: replicate n (GET "/cats" caller)).
  rewrite serve_cons, IH. apply handle_get_cats.
Qed.

(** C9. In a fresh process the store holds exactly the record
    [{name: "Tom", age: 3}]: the first [GET /cats], and any number of
    them before a [POST], returns that one-element sequence. *)
Theorem initial_store_tom (caller : value) (n : nat) :
  cats initial = [JObj (<["name" := JStr "Tom"]> (<["age" := JNum 3%float]> ∅))]
  ∧ length (cats initial) = 1
  ∧ (handle (GET "/cats" caller) initial).1 =
      Responded {| statusCode := 200%float; sent := Some (JArr [tom]) |}
  ∧ (handle (GET "/cats" caller)
       (serve (replicate n (GET "/cats" caller)) initial).2).1 =
      Responded {| statusCode := 200%float; sent := Some (JArr [tom]) |}.
Proof.
  do 3 (split; [reflexivity |]).
  destruct (handle_get_cats caller
              (serve (replicate n (GET "/cats" caller)) initial).2) as [-> _].
  by rewrite serve_gets.
Qed.

(** ** The guard and the metadata of the route *)

Lemma invoke_annotated_create (md : gmap string value) (req : Request) (w : World) :
  invoke (annotated md create) req w = invoke create req w.
Proof.
  rewrite !invoke_stages.
  change (guards (annotated md create)) with (guards create).
  rewrite !tryActivate_create.
  by rewrite (canActivate_metadata req (metadata (annotated md create)) (metadata create)).
Qed.

(** C10. The decision of [RolesGuard.canActivate] does not depend on the
    metadata that [@Roles(...)] sets on the route: with any two metadata
    the guard returns the same value for the same request, [POST /cats]
    annotated with any other roles, or with none, behaves as it does with
    [@Roles('admin')], and for a user with a role list the guard grants
    exactly when the list contains the string [admin]. *)
Theorem canActivate_ignores_metadata (req : Request) (md1 md2 : gmap string value) :
  canActivate {| getRequest := req; getHandlerMetadata := md1 |} =
    canActivate {| getRequest := req; getHandlerMetadata := md2 |}
  ∧ (∀ (roles : list string) (w : World),
       dispatch (annotated (Roles roles ∅) create) req w = dispatch create req w
       ∧ dispatch (annotated ∅ create) req w = dispatch create req w)
  ∧ (∀ (u : gmap string value) (roles : list value),
       user req = JObj u → u !! "roles" = Some (JArr roles) →
       (canActivate {| getRequest := req; getHandlerMetadata := md1 |} = Normal (JBool true)
          ↔ JStr "admin" ∈ roles)
       ∧ (canActivate {| getRequest := req; getHandlerMetadata := md1 |} = Normal (JBool false)
          ↔ JStr "admin" ∉ roles)).
Proof.
  split; [apply canActivate_metadata |]. split.
  - intros roles w. unfold dispatch.
    rewrite !invoke_annotated_create. done.
  - intros u roles Hu Hroles.
    rewrite (canActivate_role_list {| getRequest := req; getHandlerMetadata := md1 |}
               u roles Hu Hroles).
    rewrite <- includes_admin_elem_of.
    destruct (existsb is_admin roles); split; split;
      first [done | intros [=] | intros H; by destruct H].
Qed.

Lemma canActivate_ignores_metadata_witness :
  canActivate {| getRequest := POST "/cats" admin whiskers;
                 getHandlerMetadata := Roles ["guest"] ∅ |} =
    canActivate {| getRequest := POST "/cats" admin whiskers;
                   getHandlerMetadata := Roles ["admin"] ∅ |}
  ∧ (canActivate {| getRequest := POST "/cats" admin whiskers;
                    getHandlerMetadata := Roles ["guest"] ∅ |} = Normal (JBool true)
     ↔ JStr "admin" ∈ [JStr "admin"]).
Proof.
  pose proof (canActivate_ignores_metadata (POST "/cats" admin whiskers)
                (Roles ["guest"] ∅) (Roles ["admin"] ∅)) as (Hsame & _ & Hlist).
  split; [exact Hsame |].
  apply (Hlist (<["roles" := JArr [JStr "admin"]]> ∅) [JStr "admin"]).
  - reflexivity.
  - apply lookup_insert_eq.
Defined.

(** ** The test files of the repository, on the model *)

(** [ValidationPipe]: "should return value unchanged if valid" and
    "should throw if name is missing". *)
Example validation_pipe_spec :
  transform (JObj (<["name" := JStr "Tom"]> ∅)) md0 = Normal (JObj (<["name" := JStr "Tom"]> ∅))
  ∧ is_normal (transform (JObj ∅) md0) = false.
Proof. split; reflexivity. Qed.

(** [CatsService]: "should return cats"; [CatsGateway]: "should echo the
    message". *)
Example cats_service_and_gateway_spec :
  (getCats initial).1 = Normal (JArr [tom])
  ∧ handleMessage "test" = "Received: test".
Proof. split; reflexivity. Qed.

(** [RolesGuard]: "should allow if user has admin role" holds; "should
    deny if user has no roles" expects [false] where the guard returns
    [undefined]. *)
Example roles_guard_spec :
  canActivate {| getRequest := GET "/cats" admin; getHandlerMetadata := ∅ |} = Normal (JBool true)
  ∧ canActivate {| getRequest := GET "/cats" no_roles; getHandlerMetadata := ∅ |} = Normal JUndefined.
Proof. split; reflexivity. Qed.

(** The end-to-end file posts to [/cats] without a user: the guard
    answers both of its requests, the valid and the invalid one, with
    status 403. *)
Example e2e_post_without_user :
  (handle (POST "/cats" anonymous tom) initial).1 =
    (handle (POST "/cats" anonymous malformed) initial).1
  ∧ (handle (POST "/cats" anonymous tom) initial).1 =
      reply 201%float (Throw (ForbiddenException "Forbidden resource")).
Proof. split; reflexivity. Qed.

(** What the console shows for a granted [POST /cats]. *)
Example console_of_post :
  console (handle (POST "/cats" admin whiskers) initial).2 =
    ["[Request] POST /cats"; "Before..."; "Before..."; "After..."; "After..."].
Proof. reflexivity. Qed.

(** [roles.includes] on a string searches it: a user whose [roles] is
    the string [superadmin] is let through. *)
Example roles_as_string :
  canActivate {| getRequest := GET "/cats" (JObj (<["roles" := JStr "superadmin"]> ∅));
                 getHandlerMetadata := ∅ |} = Normal (JBool true).
Proof. reflexivity. Qed.

(** * Further properties of the code *)

Import Runtime.

(** ** What the guard and the pipe can complete with *)

Lemma transform_cases (v : value) (md : ArgumentMetadata) :
  (transform v md = Normal v ∧ has_string_name v = true)
  ∨ (transform v md = Throw (BadRequestException "Validation failed: name is required")
     ∧ has_string_name v = false).
Proof.
  destruct v as [| | b | n | s | l | o];
    try (right; split;
           [first [reflexivity | by apply transform_no_properties] | reflexivity]).
  rewrite transform_object. simpl.
  destruct (o !! "name") as [[]|]; auto.
Qed.


(** ** One request, case by case *)


(** ** The validation pipe, bound more than once *)

(** X1. The pipe is idempotent: what it lets through it lets through
    again, unchanged, so binding it twice to a route (or [n] times)
    validates as binding it once does. *)
Theorem transform_idempotent (v : value) (md md' : ArgumentMetadata) (n : nat) :
  (transform v md ≫= λ v', transform v' md') = transform v md
  ∧ applyPipes (replicate (S n) transform) v md = transform v md.
Proof.
  assert (∀ m : nat, applyPipes (replicate (S m) transform) v md = transform v md) as Hn.
  { induction m as [|m IH].
    - apply applyPipes_transform.
    - change (replicate (S (S m)) transform)
        with (transform :: replicate (S m) transform).
      cbn [applyPipes].
      destruct (transform_cases v md) as [[Hv _] | [Hv _]]; rewrite Hv in *.
      + exact IH.
      + reflexivity. }
  split; [| apply Hn].
  destruct (transform_cases v md) as [[Hv _] | [Hv _]]; rewrite Hv; simpl.
  - exact Hv.
  - reflexivity.
Qed.

(** ** Who the guard lets through *)

Lemma prefix_append (p s : string) :
  String.prefix p s = true ↔ ∃ rest : string, s = p +:+ rest.
Proof.
  revert s. induction p as [|a p IH]; intros s.
  - destruct s; simpl; split; eauto.
  - destruct s as [|b s]; simpl.
    + split; [discriminate | intros [rest [=]]].
    + destruct (Ascii.ascii_dec a b) as [<-|Hab].
      * rewrite IH. split; intros [rest Hrest]; exists rest.
        -- by rewrite Hrest.
        -- by injection Hrest.
      * split; [discriminate | intros [rest [=]]; done].
Qed.

(** [String.prototype.includes('admin')] decides that [admin] occurs
    somewhere in the string. *)
Lemma occurs_admin_substring (s : string) :
  occurs_admin s = true ↔ ∃ before after : string, s = before +:+ "admin" +:+ after.
Proof.
  split.
  - induction s as [|a s IH]; [discriminate |].
    cbn [occurs_admin]. intros [Hhere | Hlater]%orb_true_iff.
    + apply prefix_append in Hhere as [rest ->]. by exists "", rest.
    + destruct (IH Hlater) as (before & after & ->).
      by exists (String a before), after.
  - intros (before & after & ->).
    induction before as [|a before IH].
    + change ("" +:+ "admin" +:+ after) with ("admin" +:+ after).
      assert (String.prefix "admin" ("admin" +:+ after) = true) as Hhere
        by (apply prefix_append; eauto).
      destruct ("admin" +:+ after); [discriminate |].
      cbn [occurs_admin]. by rewrite Hhere.
    + change (String a before +:+ "admin" +:+ after)
        with (String a (before +:+ "admin" +:+ after)).
      cbn [occurs_admin]. rewrite IH. apply orb_true_r.
Qed.

(** X2. [canActivate] returns [true] exactly when [request.user] is an
    object whose [roles] is an array that contains the string [admin],
    or a string in which [admin] occurs; and whenever it returns a
    truthy value, that value is [true]. *)
Theorem canActivate_grants_iff (context : ExecutionContext) :
  (canActivate context = Normal (JBool true) ↔
     ∃ u : gmap string value,
       user (getRequest context) = JObj u
       ∧ ((∃ roles : list value, u !! "roles" = Some (JArr roles) ∧ JStr "admin" ∈ roles)
          ∨ (∃ before after : string,
               u !! "roles" = Some (JStr (before +:+ "admin" +:+ after)))))
  ∧ (∀ g : value, canActivate context = Normal g → truthy g = true → g = JBool true).
Proof.
  split; [split |].
  - unfold canActivate, and_then.
    destruct (user (getRequest context)) as [| | b | n | s | l | u] eqn:Huser;
      try discriminate.
    + destruct b; discriminate.
    + destruct (truthy (JNum n)); discriminate.
    + destruct (truthy (JStr s)); discriminate.
    + simpl. destruct (u !! "roles") as [roles|] eqn:Hroles; [|discriminate].
      destruct roles as [| | b | n | s | l | o]; simpl; try discriminate.
      * destruct b; discriminate.
      * destruct (negb _); discriminate.
      * destruct (negb _); intros [=Hocc].
        apply occurs_admin_substring in Hocc as (before & after & ->).
        exists u. split; [done |]. right. by exists before, after.
      * intros [=Hin]. apply includes_admin_elem_of in Hin.
        exists u. split; [done |]. left. by exists l.
  - intros (u & Hu & [(roles & Hroles & Hin) | (before & after & Hroles)]).
    + apply canActivate_carries_admin. by exists u, roles.
    + unfold canActivate, and_then. rewrite Hu. simpl. rewrite Hroles. simpl.
      assert (occurs_admin (before +:+ "admin" +:+ after) = true) as Hocc
        by (apply occurs_admin_substring; eauto).
      rewrite Hocc.
      destruct (before +:+ "admin" +:+ after); [discriminate | reflexivity].
  - intros g. unfold canActivate, and_then.
    destruct (truthy (user (getRequest context))) eqn:Huser;
      [| intros [= <-] Hg; congruence].
    destruct (get_truthy _ "roles" Huser) as [roles ->]. simpl.
    destruct (truthy roles) eqn:Hroles; [| intros [= <-] Hg; congruence].
    destruct roles; simpl; try discriminate; intros [= <-]; simpl; by intros ->.
Qed.

Lemma canActivate_grants_iff_witness :
  canActivate {| getRequest := GET "/cats" (JObj (<["roles" := JStr "superadmin"]> ∅));
                 getHandlerMetadata := ∅ |} = Normal (JBool true).
Proof.
  apply (canActivate_grants_iff
           {| getRequest := GET "/cats" (JObj (<["roles" := JStr "superadmin"]> ∅));
              getHandlerMetadata := ∅ |}).
  exists (<["roles" := JStr "superadmin"]> ∅). split; [reflexivity |].
  right. exists "super", "". apply lookup_insert_eq.
Defined.

(** ** [POST /cats] for a caller the guard turns away *)

Lemma post_cats_guard (caller payload : value) (w : World) :
  handle (POST "/cats" caller payload) w =
    match canActivate {| getRequest := POST "/cats" caller payload;
                         getHandlerMetadata := metadata create |} with
    | Normal g =>
        if truthy g then
          dispatch createWithValidation (POST "/cats" caller payload) w
        else (Responded (catch {| getStatus := 403%float;
                                  message := "Forbidden resource" |} fresh),
              logged "[Request] POST /cats" w)
    | Throw e => (reply 201%float (Throw e), logged "[Request] POST /cats" w)
    end.
Proof.
  rewrite handle_post_cats. unfold dispatch.
  rewrite !invoke_stages, tryActivate_create. cbv zeta.
  destruct (canActivate _) as [g|e]; [|reflexivity].
  destruct (truthy g); reflexivity.
Qed.

(** X3. A caller without a user, a user without [roles], and a user
    whose role list does not contain [admin] are all answered 403
    "Forbidden resource" by [POST /cats], whatever the body, valid or
    not: nothing is appended, and the logging interceptor never runs
    (the console gains the line of the logger middleware only). *)
Theorem post_cats_forbidden (caller payload : value) (w : World) :
  truthy caller = false
  ∨ (∃ u : gmap string value, caller = JObj u ∧
       (u !! "roles" = None
        ∨ ∃ roles : list value, u !! "roles" = Some (JArr roles) ∧ JStr "admin" ∉ roles)) →
  handle (POST "/cats" caller payload) w =
    (Responded {|
       statusCode := 403%float;
       sent := Some (JObj (<["statusCode" := JNum 403%float]>
                 (<["message" := JStr "Forbidden resource"]> ∅)))
     |},
     {| cats := cats w; console := console w ++ ["[Request] POST /cats"] |}).
Proof.
  intros Hdenied. rewrite post_cats_guard.
  assert (∃ g, canActivate {| getRequest := POST "/cats" caller payload;
                              getHandlerMetadata := metadata create |} = Normal g
               ∧ truthy g = false) as (g & -> & ->); [| reflexivity].
  destruct Hdenied as [Hfalsy | (u & -> & [Hnone | (roles & Hroles & Hnotin)])].
  - exists caller. split; [| done].
    by apply (canActivate_falsy_user
                {| getRequest := POST "/cats" caller payload;
                   getHandlerMetadata := metadata create |}).
  - exists JUndefined. split; [| done].
    unfold canActivate, and_then. simpl. by rewrite Hnone.
  - exists (JBool false). split; [| done].
    rewrite (canActivate_role_list
               {| getRequest := POST "/cats" (JObj u) payload;
                  getHandlerMetadata := metadata create |} u roles eq_refl Hroles).
    destruct (existsb is_admin roles) eqn:Hex; [| done].
    by apply includes_admin_elem_of in Hex.
Qed.

Lemma post_cats_forbidden_witness :
  handle (POST "/cats" (JObj (<["roles" := JArr [JStr "user"; JStr "Admin"]]> ∅)) whiskers)
    initial =
    (Responded {|
       statusCode := 403%float;
       sent := Some (JObj (<["statusCode" := JNum 403%float]>
                 (<["message" := JStr "Forbidden resource"]> ∅)))
     |},
     {| cats := [tom]; console := ["[Request] POST /cats"] |}).
Proof.
  apply (post_cats_forbidden
           (JObj (<["roles" := JArr [JStr "user"; JStr "Admin"]]> ∅)) whiskers initial).
  right. exists (<["roles" := JArr [JStr "user"; JStr "Admin"]]> ∅).
  split; [reflexivity |]. right. exists [JStr "user"; JStr "Admin"].
  split; [apply lookup_insert_eq |].
  intros Hin. apply includes_admin_elem_of in Hin. discriminate Hin.
Defined.

(** X4. When [user.roles] is truthy but neither an array nor a string
    (a number, [true], an object), the guard throws a [TypeError]; the
    exception filter does not catch it, so [POST /cats] ends without the
    controller's response, and nothing is appended. *)
Theorem post_cats_roles_not_a_list (u : gmap string value) (roles payload : value)
    (w : World) :
  u !! "roles" = Some roles →
  truthy roles = true →
  (∀ l : list value, roles ≠ JArr l) →
  (∀ s : string, roles ≠ JStr s) →
  canActivate {| getRequest := POST "/cats" (JObj u) payload;
                 getHandlerMetadata := metadata create |} =
    Throw (TypeError "user.roles.includes is not a function")
  ∧ (handle (POST "/cats" (JObj u) payload) w).1 =
      Unhandled (TypeError "user.roles.includes is not a function")
  ∧ cats (handle (POST "/cats" (JObj u) payload) w).2 = cats w.
Proof.
  intros Hroles Htruthy Harr Hstr.
  assert (canActivate {| getRequest := POST "/cats" (JObj u) payload;
                         getHandlerMetadata := metadata create |} =
            Throw (TypeError "user.roles.includes is not a function")) as Hthrow.
  { unfold canActivate, and_then. simpl. rewrite Hroles. simpl. rewrite Htruthy.
    destruct roles as [| | b | n | s | l | o]; try reflexivity.
    - by destruct (Hstr s).
    - by destruct (Harr l). }
  split; [exact Hthrow |].
  rewrite post_cats_guard, Hthrow. done.
Qed.

Lemma post_cats_roles_not_a_list_witness :
  (handle (POST "/cats" (JObj (<["roles" := JObj (<["admin" := JBool true]> ∅)]> ∅)) whiskers)
     initial).1 = Unhandled (TypeError "user.roles.includes is not a function").
Proof.
  apply (post_cats_roles_not_a_list
           (<["roles" := JObj (<["admin" := JBool true]> ∅)]> ∅)
           (JObj (<["admin" := JBool true]> ∅)) whiskers initial).
  - apply lookup_insert_eq.
  - reflexivity.
  - discriminate.
  - discriminate.
Defined.

(** ** The unguarded route *)

(** X5. [POST /cats/validation-pipe] decides on the [name] of the body
    alone, for every caller, authenticated or not: a body with a string
    [name] (the empty string included, and whatever [age] holds) is
    answered 201 with the body itself and is appended to the store; any
    other body is answered 400 and nothing is appended. *)
Theorem validation_pipe_route (caller payload : value) (w : World) :
  ((handle (POST "/cats/validation-pipe" caller payload) w).1,
   cats (handle (POST "/cats/validation-pipe" caller payload) w).2) =
    (if has_string_name payload
     then (Responded {| statusCode := 201%float; sent := Some payload |},
           cats w ++ [payload])
     else (Responded {|
             statusCode := 400%float;
             sent := Some (JObj (<["statusCode" := JNum 400%float]>
                       (<["message" := JStr "Validation failed: name is required"]> ∅)))
           |},
           cats w))
  ∧ (∀ (o : gmap string value) (s : string) (age : value),
       has_string_name (JObj (<["name" := JStr s]> (<["age" := age]> o))) = true).
Proof.
  split.
  - rewrite post_validation_pipe.
    destruct (transform_cases payload bodyMetadata) as [[-> ->] | [-> ->]]; reflexivity.
  - intros o s age. simpl. by rewrite lookup_insert_eq.
Qed.

(** ** Sessions *)






(** X8. The same body may be created again and again: [n] accepted
    posts of one body leave [n] copies of it at the end of the store;
    nothing makes records unique. *)
Theorem duplicates_are_kept (n : nat) (caller payload : value) (w : World) :
  has_string_name payload = true →
  cats (serve (replicate n (POST "/cats/validation-pipe" caller payload)) w).2 =
    cats w ++ replicate n payload.
Proof.
  intros Hname. revert w. induction n as [|n IH]; intros w.
  - simpl. by rewrite app_nil_r.
  - change (replicate (S n) (POST "/cats/validation-pipe" caller payload))
      with (POST "/cats/validation-pipe" caller payload
              :: replicate n (POST "/cats/validation-pipe" caller payload)).
    rewrite serve_cons, IH.
    pose proof (post_validation_pipe caller payload w) as Hpost.
    destruct (transform_cases payload bodyMetadata) as [[Ht _] | [_ Hno]];
      [| congruence].
    rewrite Ht in Hpost. injection Hpost as _ ->.
    by rewrite <- app_assoc.
Qed.

Lemma duplicates_are_kept_witness :
  cats (serve (replicate 3 (POST "/cats/validation-pipe" anonymous tom)) initial).2 =
    [tom; tom; tom; tom].
Proof.
  apply (duplicates_are_kept 3 anonymous tom initial). reflexivity.
Defined.



(** ** The console *)







(** ** Timers and lifecycle hooks *)





(** ** The roles decorator *)

(** X13. [Roles(...roles)] sets the metadata key [roles] and no other:
    the list can be read back under that key, every other key keeps what
    it had, a second [@Roles] replaces the first, and different role
    lists give different metadata. *)
Theorem Roles_metadata (roles roles' : list string) (md : gmap string value) :
  Roles roles md !! "roles" = Some (JArr (JStr <$> roles))
  ∧ (∀ k : string, k ≠ "roles" → Roles roles md !! k = md !! k)
  ∧ Roles roles' (Roles roles md) = Roles roles' md
  ∧ (Roles roles md = Roles roles' md ↔ roles = roles').
Proof.
  unfold Roles, SetMetadata.
  split; [apply lookup_insert_eq |].
  split; [intros k Hk; by apply lookup_insert_ne |].
  split; [apply insert_insert_eq |].
  split; [| by intros ->].
  intros Heq.
  apply (f_equal (λ m : gmap string value, m !! "roles")) in Heq.
  rewrite !lookup_insert_eq in Heq. injection Heq as Heq.
  revert roles' Heq. induction roles as [|x roles IH]; intros [|y roles'] Heq;
    try discriminate; [done |].
  injection Heq as -> Heq. f_equal. by apply IH.
Qed.

(** ** The gateway's reply *)

Lemma substring_whole (p : string) : String.substring 0 (String.length p) p = p.
Proof. induction p as [|a p IH]; simpl; [done | by rewrite IH]. Qed.

(** X14. The reply of [handleMessage] starts with "Received: " and the
    payload can be read back from it: what follows the ten characters of
    the prefix is the payload, so different payloads get different
    replies. *)
Theorem handleMessage_payload (p q : string) :
  String.prefix "Received: " (handleMessage p) = true
  ∧ String.substring 10 (String.length p) (handleMessage p) = p
  ∧ (handleMessage p = handleMessage q ↔ p = q).
Proof.
  split; [apply prefix_append; by exists p |].
  split; [apply substring_whole |].
  split; [| by intros ->].
  unfold handleMessage. intros Heq. by simplify_eq/=.
Qed.
